(** * SupabaseStudio: the Amplify Hosting construct of supabase-on-aws

    A shallow embedding of [src/supabase-studio/index.ts].  The construct is
    one synchronous constructor that builds a small tree of CDK resources
    (role, read grants, build spec, Amplify app, production branch, logging
    policy) from its props.  Strings the CDK leaves as tokens ([Aws.REGION],
    [app.appId], ...) are modelled by the values they resolve to when the
    stack is deployed; they are gathered in [Deployment]. *)

From Stdlib Require Import Ascii String.
From stdpp Require Import gmap strings list fin_maps.

Local Open Scope string_scope.

(** ** Strings *)

(** [s.replace(/\//g, '')]: every slash is dropped. *)
Fixpoint strip_slashes (s : string) : string :=
  match s with
  | EmptyString => EmptyString
  | String c s' =>
      if Ascii.eqb c "/"%char then strip_slashes s' else String c (strip_slashes s')
  end.

(** [Array.prototype.join] on a list of path components. *)
Fixpoint join (sep : string) (l : list string) : string :=
  match l with
  | [] => ""
  | [x] => x
  | x :: l' => x +:+ sep +:+ join sep l'
  end.

(** [x] occurs in [s] as a contiguous run of characters. *)
Definition embeds (x s : string) : Prop := ∃ a b, s = a +:+ x +:+ b.

Fixpoint starts_with (x s : string) : bool :=
  match x, s with
  | EmptyString, _ => true
  | String a x', String b s' => Ascii.eqb a b && starts_with x' s'
  | String _ _, EmptyString => false
  end.

Fixpoint occurs (x s : string) : bool :=
  starts_with x s ||
  match s with
  | EmptyString => false
  | String _ s' => occurs x s'
  end.

(** A JavaScript object literal with string values: keys are written in
    order, a later key overwrites an earlier one. *)
Definition object (l : list (string * string)) : gmap string string :=
  foldl (λ m kv, <[kv.1 := kv.2]> m) ∅ l.

(** ** The CDK handles the construct reads and builds *)

(** [constructs]: a node is known by the ids on the way from the root, and
    knows the ids of the children it already has. *)
Record Construct := { scopes : list string; children : list string }.

(** [node.path]: the ids joined by slashes, empty ids (the root's) left out. *)
Definition node_path (c : Construct) : string :=
  join "/" (filter (λ i, i ≠ "") (scopes c)).

(** The id a node is given: every slash of the id asked for becomes [--]. *)
Fixpoint sanitizeId (id : string) : string :=
  match id with
  | EmptyString => EmptyString
  | String c id' =>
      if Ascii.eqb c "/"%char then String "-" (String "-" (sanitizeId id'))
      else String c (sanitizeId id')
  end.

(** The node [new Construct(scope, id)] makes when it does not throw. *)
Definition Construct_node (scope : Construct) (id : string) : Construct :=
  {| scopes := scopes scope ++ [sanitizeId id]; children := [] |}.

(** [new Construct(scope, id)]: throws for an empty id ([None]) and for an id
    a child of the scope already has. *)
Definition Construct_new (scope : Construct) (id : string) : option Construct :=
  if decide (sanitizeId id = "") then None
  else if decide (sanitizeId id ∈ children scope) then None
  else Some (Construct_node scope id).

(** What [new X(scope, name, ...)] does to its scope. *)
Definition addChild (c : Construct) (name : string) : Construct :=
  {| scopes := scopes c; children := children c ++ [name] |}.

(** What the deploy-time tokens stand for: the pseudo parameters of [cdk.Aws]
    and the attributes the platform returns for the Amplify app. *)
Record Deployment := {
  PARTITION : string;
  REGION : string;
  ACCOUNT_ID : string;
  attrAppId : string;
  attrDefaultDomain : string;
}.

Module cdk.
Inductive SecretValue :=
| secretsManager (secretId : string) (jsonField : option string)
| unsafePlainText (secret : string).

Record ResourceEnvironment := { account : string; region : string }.
End cdk.

Module secretsmanager.
(** [ISecret]: the ARN names the secret, [secretValue] is what is stored. *)
Record ISecret := { secretArn : string; secretValue : string }.
End secretsmanager.

Module ssm.
Record StringParameter := {
  parameterName : string;
  stringValue : string;
  env : cdk.ResourceEnvironment;
}.
End ssm.

Module iam.
Inductive Principal := ServicePrincipal (service : string).

Record PolicyStatement := {
  sid : string;
  actions : list string;
  resources : list string;
}.

Record Policy := {
  policy_id : string;
  policyName : string;
  statements : list PolicyStatement;
  roles : list string;
}.

(** What a read grant is asked for: a secret, named by its ARN, or a
    parameter, named by its name in the region and account it lives in. *)
Inductive Grantable :=
| OnSecret (secretArn : string)
| OnParameter (parameterName : string) (env : cdk.ResourceEnvironment).

Record Grant := { resource : Grantable; grantee : string }.

Definition identifier (g : Grantable) : string :=
  match g with
  | OnSecret arn => arn
  | OnParameter name _ => name
  end.

(** [inlinePolicies] holds what [attachInlinePolicy] has put on the role, in
    order. [defaultPolicy] holds what the role's own policy
    ([Role/DefaultPolicy]) allows to read; the actions and ARNs the CDK
    writes for each resource are left out. *)
Record Role := {
  role_id : string;
  description : string;
  path : string;
  assumedBy : Principal;
  defaultPolicy : list Grantable;
  inlinePolicies : list string;
}.

Definition Role_new (id description path : string) (assumedBy : Principal) : Role :=
  {| role_id := id; description := description; path := path;
     assumedBy := assumedBy; defaultPolicy := []; inlinePolicies := [] |}.

(** [role.addToPrincipalPolicy(statement)]: the default policy is made and
    attached to the role when its first statement comes. *)
Definition addToPrincipalPolicy (r : Role) (g : Grantable) : Role :=
  {| role_id := role_id r; description := description r; path := path r;
     assumedBy := assumedBy r;
     defaultPolicy := defaultPolicy r ++ [g];
     inlinePolicies :=
       match defaultPolicy r with
       | [] => inlinePolicies r ++ ["DefaultPolicy"]
       | _ :: _ => inlinePolicies r
       end |}.

Definition Policy_new (id policyName : string) (statements : list PolicyStatement) : Policy :=
  {| policy_id := id; policyName := policyName; statements := statements; roles := [] |}.

(** [policy.attachToRole(role)] changes both handles. *)
Definition attachToRole (p : Policy) (r : Role) : Policy * Role :=
  ({| policy_id := policy_id p; policyName := policyName p;
      statements := statements p; roles := roles p ++ [role_id r] |},
   {| role_id := role_id r; description := description r; path := path r;
      assumedBy := assumedBy r;
      defaultPolicy := defaultPolicy r;
      inlinePolicies := inlinePolicies r ++ [policy_id p] |}).
End iam.

(** [secret.grantRead(role)] and [parameter.grantRead(role)], for a role
    made in the stack: the resource goes into the default policy of the
    role. The role as it is afterwards comes back with the grant. *)
Definition ISecret_grantRead (s : secretsmanager.ISecret) (r : iam.Role)
    : iam.Role * iam.Grant :=
  let on := iam.OnSecret (secretsmanager.secretArn s) in
  (iam.addToPrincipalPolicy r on,
   {| iam.resource := on; iam.grantee := iam.role_id r |}).

Definition StringParameter_grantRead (p : ssm.StringParameter) (r : iam.Role)
    : iam.Role * iam.Grant :=
  let on := iam.OnParameter (ssm.parameterName p) (ssm.env p) in
  (iam.addToPrincipalPolicy r on,
   {| iam.resource := on; iam.grantee := iam.role_id r |}).

Module codebuild.
Record Phase := { commands : list string }.
Record Artifacts := { baseDirectory : string; files : list string }.
Record Cache := { paths : list string }.
Record Frontend := {
  phases : list (string * Phase);
  artifacts : Artifacts;
  cache : Cache;
}.
Record Application := { appRoot : string; frontend : Frontend }.
Record BuildSpec := { version : nat; applications : list Application }.
End codebuild.

Module amplify.
Record GitHubSourceCodeProvider := {
  owner : string;
  repository : string;
  oauthToken : cdk.SecretValue;
}.

Inductive RedirectStatus :=
| REWRITE
| PERMANENT_REDIRECT
| TEMPORARY_REDIRECT
| NOT_FOUND
| NOT_FOUND_REWRITE.

Record CustomRule := { source : string; target : string; status : RedirectStatus }.

Record AppProps := {
  props_appName : string;
  props_role : iam.Role;
  props_sourceCodeProvider : GitHubSourceCodeProvider;
  props_buildSpec : codebuild.BuildSpec;
  props_environmentVariables : gmap string string;
  props_customRules : list CustomRule;
}.

(** The app keeps the role by reference (its id): the policy attached to
    the role afterwards is seen through it. [overrides] are the property
    overrides put on the underlying CloudFormation resource. *)
Record App := {
  appName : string;
  role : string;
  sourceCodeProvider : GitHubSourceCodeProvider;
  buildSpec : codebuild.BuildSpec;
  environmentVariables : gmap string string;
  customRules : list CustomRule;
  appId : string;
  defaultDomain : string;
  overrides : list (string * string);
}.

Definition App_new (d : Deployment) (p : AppProps) : App :=
  {| appName := props_appName p;
     role := iam.role_id (props_role p);
     sourceCodeProvider := props_sourceCodeProvider p;
     buildSpec := props_buildSpec p;
     environmentVariables := props_environmentVariables p;
     customRules := props_customRules p;
     appId := attrAppId d;
     defaultDomain := attrDefaultDomain d;
     overrides := [] |}.

(** [(app.node.defaultChild as CfnResource).addPropertyOverride(k, v)] *)
Definition addPropertyOverride (a : App) (k v : string) : App :=
  {| appName := appName a; role := role a;
     sourceCodeProvider := sourceCodeProvider a; buildSpec := buildSpec a;
     environmentVariables := environmentVariables a;
     customRules := customRules a; appId := appId a;
     defaultDomain := defaultDomain a;
     overrides := overrides a ++ [(k, v)] |}.

Record BranchOptions := {
  opt_branchName : option string;
  opt_stage : string;
  opt_autoBuild : bool;
  opt_environmentVariables : gmap string string;
}.

Record Branch := {
  branch_app : string;
  branchName : string;
  stage : string;
  autoBuild : bool;
  branch_environmentVariables : gmap string string;
  branch_overrides : list (string * string);
}.

(** [app.addBranch(id, options)]: the branch is named after its id when no
    name is given. *)
Definition addBranch (a : App) (id : string) (o : BranchOptions) : Branch :=
  {| branch_app := appId a;
     branchName := default id (opt_branchName o);
     stage := opt_stage o;
     autoBuild := opt_autoBuild o;
     branch_environmentVariables := opt_environmentVariables o;
     branch_overrides := [] |}.

(** [branch.addEnvironment(name, value)] writes the key in place. *)
Definition addEnvironment (b : Branch) (name value : string) : Branch :=
  {| branch_app := branch_app b; branchName := branchName b; stage := stage b;
     autoBuild := autoBuild b;
     branch_environmentVariables := <[name := value]> (branch_environmentVariables b);
     branch_overrides := branch_overrides b |}.

Definition Branch_addPropertyOverride (b : Branch) (k v : string) : Branch :=
  {| branch_app := branch_app b; branchName := branchName b; stage := stage b;
     autoBuild := autoBuild b;
     branch_environmentVariables := branch_environmentVariables b;
     branch_overrides := branch_overrides b ++ [(k, v)] |}.
End amplify.

(** ** The construct *)

Record SupabaseStudioProps := {
  sourceBranch : option string;
  appRoot : option string;
  supabaseUrl : string;
  dbSecret : secretsmanager.ISecret;
  anonKey : ssm.StringParameter;
  serviceRoleKey : ssm.StringParameter;
}.

(** The three members of the class, and with them what the constructor left
    in the tree under [this]: the role, the logging policy and the read
    grants it asked for, in call order. *)
Record SupabaseStudio := {
  node : Construct;
  app : amplify.App;
  prodBranch : amplify.Branch;
  prodBranchUrl : string;
  child_Role : iam.Role;
  child_AmplifySSRLoggingPolicy : iam.Policy;
  grants : list iam.Grant;
}.

(** The constructor once [super(scope, id)] has made the node;
    [SupabaseStudio_new] below puts the checks of [super] in front. *)
Definition constructor (scope : Construct) (id : string)
    (props : SupabaseStudioProps) (d : Deployment) : SupabaseStudio :=
  let this := Construct_node scope id in
  let buildImage := "public.ecr.aws/sam/build-nodejs22.x:1.140.0-20250605234713" in
  let appRoot := "apps/studio" in
  let supabaseUrl := supabaseUrl props in
  let dbSecret := dbSecret props in
  let anonKey := anonKey props in
  let serviceRoleKey := serviceRoleKey props in
  let gitHubProvider :=
    {| amplify.owner := "ProvorovOleksii";
       amplify.repository := "supabase";
       amplify.oauthToken := cdk.secretsManager "github-token" (Some "token") |} in
  let role :=
    iam.Role_new "Role"
      "The service role that will be used by AWS Amplify for SSR app logging."
      "/service-role/"
      (iam.ServicePrincipal "amplify.amazonaws.com") in
  let this := addChild this "Role" in
  let '(role, grant1) := ISecret_grantRead dbSecret role in
  let '(role, grant2) := StringParameter_grantRead anonKey role in
  let '(role, grant3) := StringParameter_grantRead serviceRoleKey role in
  let buildSpec :=
    {| codebuild.version := 1;
       codebuild.applications :=
         [ {| codebuild.appRoot := appRoot;
              codebuild.frontend :=
                {| codebuild.phases :=
                     [ ("preBuild",
                        {| codebuild.commands :=
                             [ "echo POSTGRES_PASSWORD=$(aws secretsmanager get-secret-value --secret-id $DB_SECRET_ARN --query SecretString | jq -r . | jq -r .password) >> .env.production";
                               "echo SUPABASE_ANON_KEY=$(aws ssm get-parameter --region $SUPABASE_REGION --name $ANON_KEY_NAME --query Parameter.Value) >> .env.production";
                               "echo SUPABASE_SERVICE_KEY=$(aws ssm get-parameter --region $SUPABASE_REGION --name $SERVICE_KEY_NAME --query Parameter.Value) >> .env.production";
                               "env | grep -e STUDIO_PG_META_URL >> .env.production";
                               "env | grep -e SUPABASE_ >> .env.production";
                               "env | grep -e NEXT_PUBLIC_ >> .env.production";
                               "cd ../";
                               "export NODE_OPTIONS='--max-old-space-size=12000'";
                               "corepack enable";
                               "corepack prepare pnpm@latest --activate";
                               "pnpm install --config.ignore-engines=true" ] |});
                       ("build",
                        {| codebuild.commands :=
                             [ "pnpm exec turbo run build --filter=studio...";
                               "pnpm install --prod" ] |}) ];
                   codebuild.artifacts :=
                     {| codebuild.baseDirectory := ".next/standalone";
                        codebuild.files := ["**/*"] |};
                   codebuild.cache :=
                     {| codebuild.paths := ["node_modules/**/*"] |} |} |} ] |} in
  let app :=
    amplify.App_new d
      {| amplify.props_appName := strip_slashes (node_path this);
         amplify.props_role := role;
         amplify.props_sourceCodeProvider := gitHubProvider;
         amplify.props_buildSpec := buildSpec;
         amplify.props_environmentVariables :=
           object
             [ ("NODE_OPTIONS", "--max-old-space-size=12000");
               ("AMPLIFY_DIFF_DEPLOY", "false");
               ("_CUSTOM_IMAGE", buildImage);
               ("STUDIO_PG_META_URL", supabaseUrl +:+ "/pg");
               ("SUPABASE_URL", supabaseUrl);
               ("SUPABASE_PUBLIC_URL", supabaseUrl);
               ("SUPABASE_REGION", cdk.region (ssm.env serviceRoleKey));
               ("DB_SECRET_ARN", secretsmanager.secretArn dbSecret);
               ("ANON_KEY_NAME", ssm.parameterName anonKey);
               ("SERVICE_KEY_NAME", ssm.parameterName serviceRoleKey);
               ("AMPLIFY_MONOREPO_APP_ROOT", appRoot) ];
         amplify.props_customRules :=
           [ {| amplify.source := "/<*>";
                amplify.target := "/index.html";
                amplify.status := amplify.NOT_FOUND_REWRITE |} ] |} in
  let this := addChild this "App" in
  let app := amplify.addPropertyOverride app "Platform" "WEB_COMPUTE" in
  let prodBranch :=
    amplify.addBranch app "ProdBranch"
      {| amplify.opt_branchName := Some "master";
         amplify.opt_stage := "PRODUCTION";
         amplify.opt_autoBuild := true;
         amplify.opt_environmentVariables :=
           object
             [ ("NEXT_PUBLIC_SITE_URL",
                "https://main." +:+ amplify.appId app +:+ ".amplifyapp.com");
               ("AMPLIFY_MONOREPO_APP_ROOT", appRoot) ] |} in
  let prodBranch := amplify.addEnvironment prodBranch "AMPLIFY_MONOREPO_APP_ROOT" appRoot in
  let prodBranch := amplify.Branch_addPropertyOverride prodBranch "Framework" "Next.js - SSR" in
  let amplifySSRLoggingPolicy :=
    iam.Policy_new "AmplifySSRLoggingPolicy"
      ("AmplifySSRLoggingPolicy-" +:+ amplify.appId app)
      [ {| iam.sid := "PushLogs";
           iam.actions := ["logs:CreateLogStream"; "logs:PutLogEvents"];
           iam.resources :=
             [ "arn:" +:+ PARTITION d +:+ ":logs:" +:+ REGION d +:+ ":" +:+ ACCOUNT_ID d
                 +:+ ":log-group:/aws/amplify/" +:+ amplify.appId app +:+ ":log-stream:*" ] |};
        {| iam.sid := "CreateLogGroup";
           iam.actions := ["logs:CreateLogGroup"];
           iam.resources :=
             [ "arn:" +:+ PARTITION d +:+ ":logs:" +:+ REGION d +:+ ":" +:+ ACCOUNT_ID d
                 +:+ ":log-group:/aws/amplify/*" ] |};
        {| iam.sid := "DescribeLogGroups";
           iam.actions := ["logs:DescribeLogGroups"];
           iam.resources :=
             [ "arn:" +:+ PARTITION d +:+ ":logs:" +:+ REGION d +:+ ":" +:+ ACCOUNT_ID d
                 +:+ ":log-group:*" ] |} ] in
  let this := addChild this "AmplifySSRLoggingPolicy" in
  let '(amplifySSRLoggingPolicy, role) := iam.attachToRole amplifySSRLoggingPolicy role in
  {| node := this;
     app := app;
     prodBranch := prodBranch;
     prodBranchUrl :=
       "https://" +:+ amplify.branchName prodBranch +:+ "." +:+ amplify.defaultDomain app;
     child_Role := role;
     child_AmplifySSRLoggingPolicy := amplifySSRLoggingPolicy;
     grants := [grant1; grant2; grant3] |}.

(** [new SupabaseStudio(scope, id, props)]: [super(scope, id)] throws before
    anything is built, or the constructor runs. *)
Definition SupabaseStudio_new (scope : Construct) (id : string)
    (props : SupabaseStudioProps) (d : Deployment) : option SupabaseStudio :=
  _ ← Construct_new scope id;
  Some (constructor scope id props d).

(** ** Reading the result *)

(** The commands of the phase called [name], over the applications of a
    build spec. *)
Definition commands_of (name : string) (bs : codebuild.BuildSpec) : list string :=
  a ← codebuild.applications bs;
  kp ← codebuild.phases (codebuild.frontend a);
  if decide (kp.1 = name) then codebuild.commands kp.2 else [].

Definition preBuild_commands (out : SupabaseStudio) : list string :=
  commands_of "preBuild" (amplify.buildSpec (app out)).

Definition build_commands (out : SupabaseStudio) : list string :=
  commands_of "build" (amplify.buildSpec (app out)).

(** The identifiers of the resources the construct asked read access for. *)
Definition granted_identifiers (out : SupabaseStudio) : list string :=
  (λ g, iam.identifier (iam.resource g)) <$> grants out.

(** The [n]-th pre-build command contains [x]. *)
Definition preBuild_mentions (out : SupabaseStudio) (n : nat) (x : string) : Prop :=
  ∃ c, preBuild_commands out !! n = Some c ∧ embeds x c.

(** An ARN of CloudWatch Logs for the log group pattern [name]. *)
Definition log_group_arn (d : Deployment) (name : string) : string :=
  "arn:" +:+ PARTITION d +:+ ":logs:" +:+ REGION d +:+ ":" +:+ ACCOUNT_ID d
    +:+ ":log-group:" +:+ name.

(** The same deployment with another id assigned to the app. *)
Definition with_appId (d : Deployment) (a : string) : Deployment :=
  {| PARTITION := PARTITION d;
     REGION := REGION d;
     ACCOUNT_ID := ACCOUNT_ID d;
     attrAppId := a;
     attrDefaultDomain := attrDefaultDomain d |}.

(** Every resource of the statement contains the id of the app. *)
Definition names_app (out : SupabaseStudio) (st : iam.PolicyStatement) : Prop :=
  Forall (embeds (amplify.appId (app out))) (iam.resources st).

(** The first two statements of the logging policy are both written with
    the id of the app. *)
Definition first_two_statements_name_app (out : SupabaseStudio) : Prop :=
  ∃ s1 s2 rest,
    iam.statements (child_AmplifySSRLoggingPolicy out) = s1 :: s2 :: rest ∧
    names_app out s1 ∧ names_app out s2.

(** The three identifiers are among the grants and are written out in the
    three fetch commands. *)
Definition identifiers_verbatim_in_grants_and_commands
    (props : SupabaseStudioProps) (out : SupabaseStudio) : Prop :=
  secretsmanager.secretArn (dbSecret props) ∈ granted_identifiers out ∧
  ssm.parameterName (anonKey props) ∈ granted_identifiers out ∧
  ssm.parameterName (serviceRoleKey props) ∈ granted_identifiers out ∧
  preBuild_mentions out 0 (secretsmanager.secretArn (dbSecret props)) ∧
  preBuild_mentions out 1 (ssm.parameterName (anonKey props)) ∧
  preBuild_mentions out 2 (ssm.parameterName (serviceRoleKey props)).

(** Two props that name the same secret and parameters (and agree on the
    rest) but may hold different stored values. *)
Definition same_references (p q : SupabaseStudioProps) : Prop :=
  sourceBranch p = sourceBranch q ∧
  appRoot p = appRoot q ∧
  supabaseUrl p = supabaseUrl q ∧
  secretsmanager.secretArn (dbSecret p) = secretsmanager.secretArn (dbSecret q) ∧
  ssm.parameterName (anonKey p) = ssm.parameterName (anonKey q) ∧
  ssm.env (anonKey p) = ssm.env (anonKey q) ∧
  ssm.parameterName (serviceRoleKey p) = ssm.parameterName (serviceRoleKey q) ∧
  ssm.env (serviceRoleKey p) = ssm.env (serviceRoleKey q).

(** Two props that agree on everything but [sourceBranch] and [appRoot]. *)
Definition same_required_props (p q : SupabaseStudioProps) : Prop :=
  supabaseUrl p = supabaseUrl q ∧
  dbSecret p = dbSecret q ∧
  anonKey p = anonKey q ∧
  serviceRoleKey p = serviceRoleKey q.

(** ** A sample stack *)

Definition sample_scope : Construct := {| scopes := ["Web"]; children := [] |}.

Definition sample_deployment : Deployment :=
  {| PARTITION := "aws";
     REGION := "us-east-1";
     ACCOUNT_ID := "123456789012";
     attrAppId := "d1a2b3c4d5e6f7";
     attrDefaultDomain := "d1a2b3c4d5e6f7.amplifyapp.com" |}.

Definition sample_env : cdk.ResourceEnvironment :=
  {| cdk.account := "123456789012"; cdk.region := "us-east-1" |}.

Definition sample_props : SupabaseStudioProps :=
  {| sourceBranch := None;
     appRoot := None;
     supabaseUrl := "https://api.example.com";
     dbSecret :=
       {| secretsmanager.secretArn :=
            "arn:aws:secretsmanager:us-east-1:123456789012:secret:db-AbCdEf";
          secretsmanager.secretValue := "hunter2" |};
     anonKey :=
       {| ssm.parameterName := "/supabase/anon";
          ssm.stringValue := "anon-jwt";
          ssm.env := sample_env |};
     serviceRoleKey :=
       {| ssm.parameterName := "/supabase/service";
          ssm.stringValue := "service-jwt";
          ssm.env := sample_env |} |}.

(** The same references after the stored values were rotated. *)
Definition sample_props_rotated : SupabaseStudioProps :=
  {| sourceBranch := None;
     appRoot := None;
     supabaseUrl := "https://api.example.com";
     dbSecret :=
       {| secretsmanager.secretArn :=
            "arn:aws:secretsmanager:us-east-1:123456789012:secret:db-AbCdEf";
          secretsmanager.secretValue := "correct horse" |};
     anonKey :=
       {| ssm.parameterName := "/supabase/anon";
          ssm.stringValue := "anon-jwt-2";
          ssm.env := sample_env |};
     serviceRoleKey :=
       {| ssm.parameterName := "/supabase/service";
          ssm.stringValue := "service-jwt-2";
          ssm.env := sample_env |} |}.

(** The same props with the two optional ones set. *)
Definition sample_props_develop : SupabaseStudioProps :=
  {| sourceBranch := Some "develop";
     appRoot := Some "apps/docs";
     supabaseUrl := supabaseUrl sample_props;
     dbSecret := dbSecret sample_props;
     anonKey := anonKey sample_props;
     serviceRoleKey := serviceRoleKey sample_props |}.

Definition sample : SupabaseStudio :=
  constructor sample_scope "App" sample_props sample_deployment.

(** ** More ways to read and compare *)

(** The strings of a list put end to end. *)
Definition concat_strings (l : list string) : string := foldr String.append "" l.

(** What the constructor takes from its props: the URL, the ARN of the
    secret, the names of the two parameters and the region of the service
    role key. *)
Definition reads_same (p q : SupabaseStudioProps) : Prop :=
  supabaseUrl p = supabaseUrl q ∧
  secretsmanager.secretArn (dbSecret p) = secretsmanager.secretArn (dbSecret q) ∧
  ssm.parameterName (anonKey p) = ssm.parameterName (anonKey q) ∧
  ssm.parameterName (serviceRoleKey p) = ssm.parameterName (serviceRoleKey q) ∧
  cdk.region (ssm.env (serviceRoleKey p)) = cdk.region (ssm.env (serviceRoleKey q)).

(** The names of the variables the app is created with. *)
Definition app_variable_names : list string :=
  [ "NODE_OPTIONS"; "AMPLIFY_DIFF_DEPLOY"; "_CUSTOM_IMAGE"; "STUDIO_PG_META_URL";
    "SUPABASE_URL"; "SUPABASE_PUBLIC_URL"; "SUPABASE_REGION"; "DB_SECRET_ARN";
    "ANON_KEY_NAME"; "SERVICE_KEY_NAME"; "AMPLIFY_MONOREPO_APP_ROOT" ].

(** The sample props with the anonymous key kept in another region and
    account. *)
Definition sample_props_anon_elsewhere : SupabaseStudioProps :=
  {| sourceBranch := sourceBranch sample_props;
     appRoot := appRoot sample_props;
     supabaseUrl := supabaseUrl sample_props;
     dbSecret := dbSecret sample_props;
     anonKey :=
       {| ssm.parameterName := "/supabase/anon";
          ssm.stringValue := "anon-jwt";
          ssm.env := {| cdk.account := "210987654321"; cdk.region := "eu-west-1" |} |};
     serviceRoleKey := serviceRoleKey sample_props |}.

(** The sample props with a URL that ends in a slash. *)
Definition sample_props_trailing_slash : SupabaseStudioProps :=
  {| sourceBranch := sourceBranch sample_props;
     appRoot := appRoot sample_props;
     supabaseUrl := "https://api.example.com/";
     dbSecret := dbSecret sample_props;
     anonKey := anonKey sample_props;
     serviceRoleKey := serviceRoleKey sample_props |}.

(** The role as the constructor makes it, before the grants. *)
Definition sample_role : iam.Role :=
  iam.Role_new "Role"
    "The service role that will be used by AWS Amplify for SSR app logging."
    "/service-role/"
    (iam.ServicePrincipal "amplify.amazonaws.com").

(** The policies of the role [r'] are those of [r]. *)
Definition same_policies (r r' : iam.Role) : Prop :=
  iam.defaultPolicy r' = iam.defaultPolicy r ∧
  iam.inlinePolicies r' = iam.inlinePolicies r.

(** Each of the three grant calls leaves the policies of the role as they
    were. *)
Definition grants_leave_role_unchanged (props : SupabaseStudioProps) (r : iam.Role) : Prop :=
  same_policies r (ISecret_grantRead (dbSecret props) r).1 ∧
  same_policies r (StringParameter_grantRead (anonKey props) r).1 ∧
  same_policies r (StringParameter_grantRead (serviceRoleKey props) r).1.

(** A scope one level below the sample scope. *)
Definition sample_scope_studio : Construct :=
  {| scopes := ["Web"; "Studio"]; children := [] |}.

(** ** Facts about strings *)

Section StringFacts.
Implicit Types x y s a b : string.

(** stdpp keeps [String.append] from unfolding under [simpl]; its two
    equations are used as rewrite rules instead. *)
Lemma append_nil_l s : "" +:+ s = s.
Proof. reflexivity. Qed.

Lemma append_cons c a s : String c a +:+ s = String c (a +:+ s).
Proof. reflexivity. Qed.

Lemma append_assoc a b s : (a +:+ b) +:+ s = a +:+ b +:+ s.
Proof.
  induction a as [|c a IH]; [done |].
  rewrite !append_cons. by rewrite IH.
Qed.

Lemma length_append a b : String.length (a +:+ b) = String.length a + String.length b.
Proof.
  induction a as [|c a IH]; [done |].
  rewrite append_cons. simpl. by rewrite IH.
Qed.

(** Cancelling a common suffix. *)
Lemma append_inj_r s x y : x +:+ s = y +:+ s → x = y.
Proof.
  revert y. induction x as [|c x IH]; intros [|c' y] H;
    rewrite ?append_cons, ?append_nil_l in H.
  - done.
  - apply (f_equal String.length) in H. simpl in H.
    rewrite length_append in H. lia.
  - apply (f_equal String.length) in H. simpl in H.
    rewrite length_append in H. lia.
  - injection H as -> H. f_equal. by apply IH.
Qed.

Lemma starts_with_spec x s : starts_with x s = true ↔ ∃ b, s = x +:+ b.
Proof.
  revert s. induction x as [|c x IH]; intros s; simpl.
  - split; [by exists s | done].
  - destruct s as [|c' s].
    + split; [done | by intros [b ?]].
    + rewrite andb_true_iff, IH, Ascii.eqb_eq. split.
      * intros [-> [b ->]]. by exists b.
      * intros [b Hb]. rewrite append_cons in Hb. injection Hb as -> ->.
        split; [done | by exists b].
Qed.

Lemma occurs_spec x s : occurs x s = true ↔ embeds x s.
Proof.
  unfold embeds. induction s as [|c s IH]; simpl.
  - rewrite orb_false_r, starts_with_spec. split.
    + intros [b Hb]. by exists "", b.
    + intros [[|c a] [b Hb]]; [by exists b | done].
  - rewrite orb_true_iff, starts_with_spec, IH. split.
    + intros [[b Hb] | (a & b & ->)]; [by exists "", b | by exists (String c a), b].
    + intros [[|c' a] [b Hb]].
      * left. by exists b.
      * right. rewrite append_cons in Hb. injection Hb as -> ->. by exists a, b.
Qed.

Lemma not_occurs_not_embeds x s : occurs x s = false → ¬ embeds x s.
Proof. intros H ?%occurs_spec. congruence. Qed.
End StringFacts.

(** ** The logging policy *)

(** The log group a push-logs pattern is written for is the one named in
    it: two patterns are equal only for the same app id. *)
Lemma push_logs_arn_inj d a a' :
  log_group_arn d ("/aws/amplify/" +:+ a +:+ ":log-stream:*")
    = log_group_arn d ("/aws/amplify/" +:+ a' +:+ ":log-stream:*") →
  a = a'.
Proof.
  unfold log_group_arn. intros H.
  repeat apply (inj (String.append _)) in H.
  by apply append_inj_r in H.
Qed.

(** C1, as the code has it: the policy has three statements. The resource
    of the first (create log stream, put log events) is the log-stream
    pattern of the log group [/aws/amplify/<appId>]: it contains the app id
    and is the pattern of no other app id. The resource of the second
    (create log group) is the pattern [/aws/amplify/*] of the whole platform
    prefix, the resource of the third (describe log groups) is every log
    group of the account; these two statements are the same whatever id
    the app is given. *)
Theorem logging_policy_scope scope id props d :
  let out := constructor scope id props d in
  let push := log_group_arn d ("/aws/amplify/" +:+ amplify.appId (app out) +:+ ":log-stream:*") in
  amplify.appId (app out) = attrAppId d ∧
  iam.statements (child_AmplifySSRLoggingPolicy out) =
    [ {| iam.sid := "PushLogs";
         iam.actions := ["logs:CreateLogStream"; "logs:PutLogEvents"];
         iam.resources := [push] |};
      {| iam.sid := "CreateLogGroup";
         iam.actions := ["logs:CreateLogGroup"];
         iam.resources := [log_group_arn d "/aws/amplify/*"] |};
      {| iam.sid := "DescribeLogGroups";
         iam.actions := ["logs:DescribeLogGroups"];
         iam.resources := [log_group_arn d "*"] |} ] ∧
  embeds (amplify.appId (app out)) push ∧
  (∀ other, push = log_group_arn d ("/aws/amplify/" +:+ other +:+ ":log-stream:*") →
     other = amplify.appId (app out)) ∧
  (∀ other,
     drop 1 (iam.statements (child_AmplifySSRLoggingPolicy
                               (constructor scope id props (with_appId d other))))
       = drop 1 (iam.statements (child_AmplifySSRLoggingPolicy out))).
Proof.
  intros out push. repeat split.
  - unfold push, log_group_arn.
    exists ("arn:" +:+ PARTITION d +:+ ":logs:" +:+ REGION d +:+ ":" +:+ ACCOUNT_ID d
              +:+ ":log-group:/aws/amplify/"), ":log-stream:*".
    rewrite !append_assoc. reflexivity.
  - intros other H. symmetry. by apply (push_logs_arn_inj d).
Qed.

(** C1 as stated fails: in the sample stack the resource of the second
    statement does not contain the app id. *)
Lemma logging_policy_second_statement_not_app_scoped :
  ¬ first_two_statements_name_app sample.
Proof.
  intros (s1 & s2 & rest & Heq & _ & H2).
  injection Heq as _ <- _.
  apply Forall_cons in H2 as [H2 _].
  by apply not_occurs_not_embeds in H2.
Qed.

(** ** Secret and parameter identifiers *)

(** C2, as the code has it: read access is asked for exactly the database
    secret and the two key parameters, for the role of the app; their
    identifiers are the values of the app's environment variables
    [DB_SECRET_ARN], [ANON_KEY_NAME] and [SERVICE_KEY_NAME]; and the three
    fetch commands of the pre-build phase name these variables and are the
    same commands whatever the inputs. *)
Theorem identifiers_granted_and_fetched scope id props d :
  let out := constructor scope id props d in
  let env := amplify.environmentVariables (app out) in
  granted_identifiers out =
    [ secretsmanager.secretArn (dbSecret props);
      ssm.parameterName (anonKey props);
      ssm.parameterName (serviceRoleKey props) ] ∧
  Forall (λ g, iam.grantee g = amplify.role (app out)) (grants out) ∧
  env !! "DB_SECRET_ARN" = Some (secretsmanager.secretArn (dbSecret props)) ∧
  env !! "ANON_KEY_NAME" = Some (ssm.parameterName (anonKey props)) ∧
  env !! "SERVICE_KEY_NAME" = Some (ssm.parameterName (serviceRoleKey props)) ∧
  preBuild_mentions out 0 "--secret-id $DB_SECRET_ARN " ∧
  preBuild_mentions out 1 "--name $ANON_KEY_NAME " ∧
  preBuild_mentions out 2 "--name $SERVICE_KEY_NAME " ∧
  ∀ scope' id' props' d',
    preBuild_commands (constructor scope' id' props' d') = preBuild_commands out.
Proof.
  intros out env. split; [reflexivity |]. split.
  { repeat constructor. }
  do 3 (split; [by vm_compute |]).
  do 3 (split; [eexists; split; [reflexivity | by apply occurs_spec] |]).
  reflexivity.
Qed.

(** C2 as stated fails: in the sample stack the command that fetches the
    database password does not contain the ARN of the secret. *)
Lemma identifiers_not_verbatim_in_commands :
  ¬ identifiers_verbatim_in_grants_and_commands sample_props sample.
Proof.
  intros (_ & _ & _ & (c & Hc & Hin) & _).
  injection Hc as <-.
  apply occurs_spec in Hin. by vm_compute in Hin.
Qed.

(** ** What a read grant writes *)

Section GrantRead.
Implicit Types r : iam.Role.

Lemma addToPrincipalPolicy_changes r g : iam.addToPrincipalPolicy r g ≠ r.
Proof.
  intros H. apply (f_equal (λ x, length (iam.defaultPolicy x))) in H.
  simpl in H. rewrite length_app in H. simpl in H. lia.
Qed.
End GrantRead.

(** C7, as the code has it: each of the three read grants adds the granted
    resource to the role's own default policy and leaves its id,
    description, path and principal alone; the first statement makes the
    default policy and attaches it to the role, so no grant call gives the
    role back unchanged. After the constructor the default policy of the
    role holds the secret and the two parameters, in call order, and the
    role carries the default policy and the logging policy. *)
Theorem grantRead_writes_role_policy scope id props d :
  let out := constructor scope id props d in
  let r := child_Role out in
  (∀ s r0,
     let r1 := (ISecret_grantRead s r0).1 in
     iam.defaultPolicy r1
       = (iam.defaultPolicy r0 ++ [iam.OnSecret (secretsmanager.secretArn s)])%list ∧
     iam.role_id r1 = iam.role_id r0 ∧ iam.description r1 = iam.description r0 ∧
     iam.path r1 = iam.path r0 ∧ iam.assumedBy r1 = iam.assumedBy r0 ∧
     r1 ≠ r0) ∧
  (∀ p r0,
     let r1 := (StringParameter_grantRead p r0).1 in
     iam.defaultPolicy r1
       = (iam.defaultPolicy r0
            ++ [iam.OnParameter (ssm.parameterName p) (ssm.env p)])%list ∧
     iam.role_id r1 = iam.role_id r0 ∧ iam.description r1 = iam.description r0 ∧
     iam.path r1 = iam.path r0 ∧ iam.assumedBy r1 = iam.assumedBy r0 ∧
     r1 ≠ r0) ∧
  (∀ g r0, iam.defaultPolicy r0 = [] →
     iam.inlinePolicies (iam.addToPrincipalPolicy r0 g)
       = (iam.inlinePolicies r0 ++ ["DefaultPolicy"])%list) ∧
  iam.defaultPolicy r =
    [ iam.OnSecret (secretsmanager.secretArn (dbSecret props));
      iam.OnParameter (ssm.parameterName (anonKey props)) (ssm.env (anonKey props));
      iam.OnParameter (ssm.parameterName (serviceRoleKey props))
        (ssm.env (serviceRoleKey props)) ] ∧
  iam.resource <$> grants out = iam.defaultPolicy r ∧
  iam.inlinePolicies r = ["DefaultPolicy"; "AmplifySSRLoggingPolicy"].
Proof.
  intros out r. split; [| split; [| split]].
  - intros s r0 r1. repeat split. apply addToPrincipalPolicy_changes.
  - intros p r0 r1. repeat split. apply addToPrincipalPolicy_changes.
  - intros g r0 H. simpl. by rewrite H.
  - repeat split.
Qed.

(** C7 as stated fails: on the role as the constructor makes it, the grant
    on the database secret gives back a role with a default policy. *)
Lemma grantRead_changes_role :
  ¬ grants_leave_role_unchanged sample_props sample_role.
Proof. intros [[H _] _]. discriminate H. Qed.

(** ** The production branch URL *)

(** C3: the URL is [https://], the name of the production branch, a dot and
    the default domain of the app, read from the two handles; the branch is
    named master, and whatever the props, scope and id, the URL is the
    same. When the platform assigns the default domain [<appId>.<suffix>],
    the URL is [https://master.<appId>.<suffix>]. *)
Theorem prodBranchUrl_derived scope id props d suffix :
  attrDefaultDomain d = attrAppId d +:+ "." +:+ suffix →
  let out := constructor scope id props d in
  prodBranchUrl out =
    "https://" +:+ amplify.branchName (prodBranch out) +:+ "."
      +:+ amplify.defaultDomain (app out) ∧
  amplify.branchName (prodBranch out) = "master" ∧
  amplify.defaultDomain (app out) = attrDefaultDomain d ∧
  prodBranchUrl out =
    "https://" +:+ "master" +:+ "." +:+ amplify.appId (app out) +:+ "." +:+ suffix ∧
  ∀ scope' id' props',
    prodBranchUrl (constructor scope' id' props' d) = prodBranchUrl out.
Proof.
  intros Hdom out. repeat split.
  unfold out, constructor. simpl. by rewrite Hdom.
Qed.

Lemma prodBranchUrl_derived_witness :
  attrDefaultDomain sample_deployment = attrAppId sample_deployment +:+ "." +:+ "amplifyapp.com" ∧
  amplify.appName (app sample) = "WebApp" ∧
  prodBranchUrl sample = "https://master.d1a2b3c4d5e6f7.amplifyapp.com".
Proof.
  split; [reflexivity |]. split; [reflexivity |].
  exact (proj1 (proj2 (proj2 (proj2
    (prodBranchUrl_derived sample_scope "App" sample_props sample_deployment
       "amplifyapp.com" eq_refl))))).
Defined.

(** ** The monorepo app root *)

(** C4: the app root of the build spec, the app's environment variable
    [AMPLIFY_MONOREPO_APP_ROOT] and the branch's environment variable of that
    name are one and the same string, [apps/studio]. *)
Theorem app_root_consistent scope id props d :
  let out := constructor scope id props d in
  ∃ root,
    codebuild.appRoot <$> codebuild.applications (amplify.buildSpec (app out)) = [root] ∧
    amplify.environmentVariables (app out) !! "AMPLIFY_MONOREPO_APP_ROOT" = Some root ∧
    amplify.branch_environmentVariables (prodBranch out) !! "AMPLIFY_MONOREPO_APP_ROOT"
      = Some root ∧
    root = "apps/studio".
Proof.
  intros out. exists "apps/studio".
  split; [reflexivity |]. do 2 (split; [by vm_compute |]). reflexivity.
Qed.

(** ** The build spec *)

(** C5: whatever the inputs, the build spec is version 1 with one
    application whose front end has a pre-build phase followed by a build
    phase and no other; the pre-build commands fetch the database password
    and the two keys into [.env.production], copy the environment variables
    matching [STUDIO_PG_META_URL], [SUPABASE_] and [NEXT_PUBLIC_] into it, go
    up to the monorepo root, raise the memory limit of node, enable corepack,
    activate pnpm and install ignoring engines; the build commands run turbo
    filtered to studio and install again for production only; the artifacts
    are all files under [.next/standalone] and [node_modules] is cached. *)
Theorem buildSpec_structure scope id props d :
  let out := constructor scope id props d in
  let bs := amplify.buildSpec (app out) in
  codebuild.version bs = 1 ∧
  ((λ a, fst <$> codebuild.phases (codebuild.frontend a)) <$> codebuild.applications bs)
    = [["preBuild"; "build"]] ∧
  preBuild_commands out =
    [ "echo POSTGRES_PASSWORD=$(aws secretsmanager get-secret-value --secret-id $DB_SECRET_ARN --query SecretString | jq -r . | jq -r .password) >> .env.production";
      "echo SUPABASE_ANON_KEY=$(aws ssm get-parameter --region $SUPABASE_REGION --name $ANON_KEY_NAME --query Parameter.Value) >> .env.production";
      "echo SUPABASE_SERVICE_KEY=$(aws ssm get-parameter --region $SUPABASE_REGION --name $SERVICE_KEY_NAME --query Parameter.Value) >> .env.production";
      "env | grep -e STUDIO_PG_META_URL >> .env.production";
      "env | grep -e SUPABASE_ >> .env.production";
      "env | grep -e NEXT_PUBLIC_ >> .env.production";
      "cd ../";
      "export NODE_OPTIONS='--max-old-space-size=12000'";
      "corepack enable";
      "corepack prepare pnpm@latest --activate";
      "pnpm install --config.ignore-engines=true" ] ∧
  Forall (embeds ">> .env.production") (take 6 (preBuild_commands out)) ∧
  Forall (λ c, ¬ embeds ".env.production" c) (drop 6 (preBuild_commands out)) ∧
  build_commands out =
    [ "pnpm exec turbo run build --filter=studio...";
      "pnpm install --prod" ] ∧
  (codebuild.artifacts ∘ codebuild.frontend <$> codebuild.applications bs)
    = [ {| codebuild.baseDirectory := ".next/standalone"; codebuild.files := ["**/*"] |} ] ∧
  (codebuild.cache ∘ codebuild.frontend <$> codebuild.applications bs)
    = [ {| codebuild.paths := ["node_modules/**/*"] |} ].
Proof.
  intros out bs.
  do 3 (split; [reflexivity |]).
  split; [repeat constructor; by apply occurs_spec |].
  split; [repeat constructor; by apply not_occurs_not_embeds |].
  repeat split.
Qed.

(** ** Platform overrides of the app *)

(** C6: whatever the inputs, the only property override on the app sets
    [Platform] to [WEB_COMPUTE], and the app has one custom rule, from
    [/<*>] to [/index.html] with the not-found-rewrite status. *)
Theorem app_platform_and_catch_all scope id props d :
  let out := constructor scope id props d in
  amplify.overrides (app out) = [("Platform", "WEB_COMPUTE")] ∧
  amplify.customRules (app out) =
    [ {| amplify.source := "/<*>";
         amplify.target := "/index.html";
         amplify.status := amplify.NOT_FOUND_REWRITE |} ].
Proof. intros out. split; reflexivity. Qed.

(** ** Secrets stay out of the configuration *)

(** C8: the token of the source provider is a reference to the secret
    [github-token] of the secret store, the environment variables hold the
    ARN of the database secret and the names of the two parameters, and two
    props that name the same secret and parameters give the same construct
    whatever values are stored under them. *)
Theorem no_secret_value_in_configuration scope id p q d :
  same_references p q →
  let out := constructor scope id p d in
  let env := amplify.environmentVariables (app out) in
  amplify.oauthToken (amplify.sourceCodeProvider (app out))
    = cdk.secretsManager "github-token" (Some "token") ∧
  env !! "DB_SECRET_ARN" = Some (secretsmanager.secretArn (dbSecret p)) ∧
  env !! "ANON_KEY_NAME" = Some (ssm.parameterName (anonKey p)) ∧
  env !! "SERVICE_KEY_NAME" = Some (ssm.parameterName (serviceRoleKey p)) ∧
  constructor scope id q d = out.
Proof.
  intros (Hb & Hr & Hu & Hs & Ha & Hae & Hk & Hke) out env.
  split; [reflexivity |]. do 3 (split; [by vm_compute |]).
  unfold out, constructor, ISecret_grantRead, StringParameter_grantRead.
  by rewrite Hu, Hs, Ha, Hae, Hk, Hke.
Qed.

Lemma no_secret_value_in_configuration_witness :
  same_references sample_props sample_props_rotated ∧
  secretsmanager.secretValue (dbSecret sample_props)
    ≠ secretsmanager.secretValue (dbSecret sample_props_rotated) ∧
  constructor sample_scope "App" sample_props_rotated sample_deployment = sample.
Proof.
  assert (H : same_references sample_props sample_props_rotated)
    by (repeat split).
  split; [exact H |]. split; [discriminate |].
  exact (proj2 (proj2 (proj2 (proj2
    (no_secret_value_in_configuration sample_scope "App" sample_props
       sample_props_rotated sample_deployment H))))).
Defined.

(** ** The optional props *)

(** C9: two props that differ only in [sourceBranch] and [appRoot] give the
    same construct; the app root is [apps/studio] and the production branch
    is [master] in any case. *)
Theorem optional_props_ignored scope id p q d :
  same_required_props p q →
  let out := constructor scope id p d in
  constructor scope id q d = out ∧
  codebuild.appRoot <$> codebuild.applications (amplify.buildSpec (app out))
    = ["apps/studio"] ∧
  amplify.branchName (prodBranch out) = "master".
Proof.
  intros (Hu & Hs & Ha & Hk) out. repeat split.
  unfold out, constructor. by rewrite Hu, Hs, Ha, Hk.
Qed.

Lemma optional_props_ignored_witness :
  same_required_props sample_props sample_props_develop ∧
  sourceBranch sample_props ≠ sourceBranch sample_props_develop ∧
  appRoot sample_props ≠ appRoot sample_props_develop ∧
  constructor sample_scope "App" sample_props_develop sample_deployment = sample.
Proof.
  assert (H : same_required_props sample_props sample_props_develop)
    by (repeat split).
  split; [exact H |]. do 2 (split; [discriminate |]).
  exact (proj1
    (optional_props_ignored sample_scope "App" sample_props
       sample_props_develop sample_deployment H)).
Defined.

(** ** The site URL of the branch *)

(** C10: the branch variable [NEXT_PUBLIC_SITE_URL] is
    [https://main.<appId>.amplifyapp.com], the production branch is named
    master, the exposed URL is [https://master.<default domain>], and the
    two URLs are never equal. *)
Theorem site_url_is_main scope id props d :
  let out := constructor scope id props d in
  amplify.branch_environmentVariables (prodBranch out) !! "NEXT_PUBLIC_SITE_URL"
    = Some ("https://main." +:+ amplify.appId (app out) +:+ ".amplifyapp.com") ∧
  amplify.appId (app out) = attrAppId d ∧
  amplify.branchName (prodBranch out) = "master" ∧
  prodBranchUrl out = "https://master." +:+ amplify.defaultDomain (app out) ∧
  amplify.branch_environmentVariables (prodBranch out) !! "NEXT_PUBLIC_SITE_URL"
    ≠ Some (prodBranchUrl out).
Proof.
  intros out. split; [by vm_compute |]. do 3 (split; [reflexivity |]).
  vm_compute. discriminate.
Qed.

(** ** The name of the app *)

Section AppName.
Implicit Types a b s : string.
Implicit Types l : list string.

Lemma append_nil_r a : a +:+ "" = a.
Proof. induction a as [|c a IH]; [done |]. by rewrite append_cons, IH. Qed.

Lemma strip_slashes_append a b :
  strip_slashes (a +:+ b) = strip_slashes a +:+ strip_slashes b.
Proof.
  induction a as [|c a IH]; [done |].
  rewrite append_cons. cbn [strip_slashes]. destruct (Ascii.eqb c "/"); [done |].
  by rewrite append_cons, IH.
Qed.

Lemma concat_strings_app l1 l2 :
  concat_strings (l1 ++ l2) = concat_strings l1 +:+ concat_strings l2.
Proof.
  induction l1 as [|x l1 IH]; [done |].
  simpl. by rewrite IH, append_assoc.
Qed.

Lemma strip_slashes_join l :
  strip_slashes (join "/" l) = concat_strings (strip_slashes <$> l).
Proof.
  induction l as [|x [|y l] IH].
  - done.
  - simpl. by rewrite append_nil_r.
  - change (join "/" (x :: y :: l)) with (x +:+ "/" +:+ join "/" (y :: l)).
    rewrite !strip_slashes_append, IH. reflexivity.
Qed.

Lemma strip_slashes_no_slash s : occurs "/" (strip_slashes s) = false.
Proof.
  induction s as [|c s IH]; [done |].
  cbn [strip_slashes]. destruct (Ascii.eqb c "/") eqn:Hc; [done |].
  cbn [occurs starts_with]. rewrite IH, Ascii.eqb_sym, Hc. reflexivity.
Qed.

Lemma strip_slashes_fixed s : occurs "/" s = false → strip_slashes s = s.
Proof.
  induction s as [|c s IH]; [done |].
  cbn [strip_slashes occurs starts_with]. rewrite Ascii.eqb_sym.
  destruct (Ascii.eqb c "/"); [done |].
  intros H. by rewrite IH.
Qed.
End AppName.

Section NodeIds.
Implicit Types a b s id : string.
Implicit Types l : list string.

Lemma sanitizeId_no_slash s : occurs "/" (sanitizeId s) = false.
Proof.
  induction s as [|c s IH]; [done |].
  cbn [sanitizeId]. destruct (Ascii.eqb c "/") eqn:Hc.
  - cbn [occurs starts_with]. rewrite IH. reflexivity.
  - cbn [occurs starts_with]. rewrite IH, Ascii.eqb_sym, Hc. reflexivity.
Qed.

Lemma sanitizeId_fixed s : occurs "/" s = false → sanitizeId s = s.
Proof.
  induction s as [|c s IH]; [done |].
  cbn [sanitizeId occurs starts_with]. rewrite Ascii.eqb_sym.
  destruct (Ascii.eqb c "/"); [done |].
  intros H. by rewrite IH.
Qed.


Lemma slash_free_occurs s : ¬ embeds "/" s → occurs "/" s = false.
Proof.
  intros H. destruct (occurs "/" s) eqn:Ho; [| done].
  by apply occurs_spec in Ho.
Qed.

Lemma occurs_slash_append a b :
  occurs "/" a = false → occurs "/" b = false → occurs "/" (a +:+ b) = false.
Proof.
  intros Ha Hb. induction a as [|c a IH]; [done |].
  rewrite append_cons. cbn [occurs starts_with] in *.
  destruct (Ascii.eqb "/" c); [done |]. simpl in *. by apply IH.
Qed.

Lemma concat_strings_nonempty l :
  concat_strings (strip_slashes <$> filter (λ i, i ≠ "") l)
    = concat_strings (strip_slashes <$> l).
Proof.
  induction l as [|x l IH]; [done |].
  rewrite filter_cons. unfold concat_strings in *.
  destruct (decide (x ≠ "")) as [Hx | Hx]; rewrite !fmap_cons; cbn [foldr].
  - by rewrite IH.
  - apply dec_stable in Hx. subst x. by rewrite IH.
Qed.

Lemma strip_slashes_all_fixed l :
  Forall (λ i, ¬ embeds "/" i) l → strip_slashes <$> l = l.
Proof.
  induction 1 as [|x l Hx _ IH]; [done |].
  simpl. f_equal; [| done].
  by apply strip_slashes_fixed, slash_free_occurs.
Qed.
End NodeIds.

Lemma appName_eq scope id props d :
  amplify.appName (app (constructor scope id props d))
    = concat_strings (strip_slashes <$> scopes scope) +:+ sanitizeId id.
Proof.
  change (amplify.appName (app (constructor scope id props d)))
    with (strip_slashes (join "/" (filter (λ i, i ≠ "")
            (scopes scope ++ [sanitizeId id])%list))).
  rewrite strip_slashes_join, concat_strings_nonempty, fmap_app, concat_strings_app.
  simpl. rewrite append_nil_r.
  by rewrite (strip_slashes_fixed _ (sanitizeId_no_slash id)).
Qed.

(** X1: in a tree whose ids have no slash, the name of the app is the ids
    of the scope put end to end and then the id of the construct with each
    slash made [--]; that last id is what the node is known by, and the name
    contains no slash. *)
Theorem appName_concat scope id props d :
  Forall (λ i, ¬ embeds "/" i) (scopes scope) →
  let out := constructor scope id props d in
  amplify.appName (app out) = concat_strings (scopes scope) +:+ sanitizeId id ∧
  scopes (node out) = (scopes scope ++ [sanitizeId id])%list ∧
  ¬ embeds "/" (amplify.appName (app out)).
Proof.
  intros Hl out. split; [| split; [reflexivity |]].
  - unfold out. by rewrite appName_eq, strip_slashes_all_fixed.
  - unfold out. rewrite appName_eq, strip_slashes_all_fixed by done.
    apply not_occurs_not_embeds, occurs_slash_append.
    + clear out. induction Hl as [|x l Hx _ IH]; [done |].
      simpl. by apply occurs_slash_append; [apply slash_free_occurs |].
    + apply sanitizeId_no_slash.
Qed.

Lemma appName_concat_witness :
  Forall (λ i, ¬ embeds "/" i) (scopes sample_scope) ∧
  amplify.appName (app (constructor sample_scope "a/b" sample_props sample_deployment))
    = "Weba--b".
Proof.
  assert (H : Forall (λ i, ¬ embeds "/" i) (scopes sample_scope)).
  { repeat constructor. by apply not_occurs_not_embeds. }
  split; [exact H |].
  exact (proj1 (appName_concat sample_scope "a/b" sample_props sample_deployment H)).
Defined.

(** X2: the name does not tell paths apart. For ids [a] and [b] without
    slash and not empty, a construct with id [b] in a scope that ends in
    [a] and one with id [a ++ b] in the scope above are both made (no child
    of either scope has the id), are different nodes, and have the same app
    name. *)
Theorem appName_collision s1 s2 a b props d :
  scopes s1 = (scopes s2 ++ [a])%list →
  ¬ embeds "/" a → ¬ embeds "/" b → a ≠ "" → b ≠ "" →
  b ∉ children s1 → a +:+ b ∉ children s2 →
  ∃ out1 out2,
    SupabaseStudio_new s1 b props d = Some out1 ∧
    SupabaseStudio_new s2 (a +:+ b) props d = Some out2 ∧
    node out1 ≠ node out2 ∧
    amplify.appName (app out1) = amplify.appName (app out2).
Proof.
  intros Hs Ha%slash_free_occurs Hb%slash_free_occurs Hane Hbne Hc1 Hc2.
  assert (Hab : sanitizeId (a +:+ b) = a +:+ b)
    by (by apply sanitizeId_fixed, occurs_slash_append).
  assert (Hsb : sanitizeId b = b) by (by apply sanitizeId_fixed).
  exists (constructor s1 b props d), (constructor s2 (a +:+ b) props d).
  split; [| split; [| split]].
  - unfold SupabaseStudio_new, Construct_new. rewrite Hsb.
    by rewrite decide_False, decide_False.
  - unfold SupabaseStudio_new, Construct_new. rewrite Hab.
    rewrite decide_False, decide_False; [done | done |].
    destruct a; [done | discriminate].
  - intros H. apply (f_equal (λ c, length (scopes c))) in H.
    simpl in H. rewrite Hs, !length_app in H. simpl in H. lia.
  - rewrite !appName_eq, Hs, Hab, Hsb, fmap_app, concat_strings_app.
    simpl. rewrite append_nil_r, append_assoc.
    by rewrite (strip_slashes_fixed a).
Qed.

Lemma appName_collision_witness :
  ∃ out1 out2,
    SupabaseStudio_new sample_scope_studio "App" sample_props sample_deployment = Some out1 ∧
    SupabaseStudio_new sample_scope "StudioApp" sample_props sample_deployment = Some out2 ∧
    node out1 ≠ node out2 ∧
    amplify.appName (app out1) = amplify.appName (app out2).
Proof.
  apply (appName_collision sample_scope_studio sample_scope "Studio" "App").
  - reflexivity.
  - by apply not_occurs_not_embeds.
  - by apply not_occurs_not_embeds.
  - discriminate.
  - discriminate.
  - apply not_elem_of_nil.
  - apply not_elem_of_nil.
Defined.


(** X3: dropping slashes leaves a string alone exactly when it has none,
    and doing it twice is doing it once; so the name of the app is the path
    of the construct only when the path has no slash. *)
Theorem strip_slashes_fixed_iff s :
  (strip_slashes s = s ↔ ¬ embeds "/" s) ∧
  strip_slashes (strip_slashes s) = strip_slashes s.
Proof.
  split.
  - split.
    + intros <-. apply not_occurs_not_embeds, strip_slashes_no_slash.
    + intros H. apply strip_slashes_fixed.
      destruct (occurs "/" s) eqn:Ho; [| done].
      by apply occurs_spec in Ho.
  - apply strip_slashes_fixed, strip_slashes_no_slash.
Qed.

(** ** What the construct depends on *)

Lemma env_reads scope id p d :
  let env := amplify.environmentVariables (app (constructor scope id p d)) in
  env !! "SUPABASE_URL" = Some (supabaseUrl p) ∧
  env !! "DB_SECRET_ARN" = Some (secretsmanager.secretArn (dbSecret p)) ∧
  env !! "ANON_KEY_NAME" = Some (ssm.parameterName (anonKey p)) ∧
  env !! "SERVICE_KEY_NAME" = Some (ssm.parameterName (serviceRoleKey p)) ∧
  env !! "SUPABASE_REGION" = Some (cdk.region (ssm.env (serviceRoleKey p))).
Proof. intros env. repeat split; by vm_compute. Qed.

(** X4: two props give the same app (name, role, source, build spec,
    variables, rules, overrides) exactly when they agree on the URL, the ARN
    of the secret, the names of the two parameters and the region of the
    service role key. Nothing else of the props reaches the app: not the
    region or account of the anonymous key, not the account of the service
    role key, not the stored values. *)
Theorem app_depends_on scope id p q d :
  app (constructor scope id p d) = app (constructor scope id q d) ↔ reads_same p q.
Proof.
  split.
  - intros H.
    pose proof (env_reads scope id p d) as (E1 & E2 & E3 & E4 & E5).
    pose proof (env_reads scope id q d) as (F1 & F2 & F3 & F4 & F5).
    rewrite H in E1, E2, E3, E4, E5.
    repeat split; congruence.
  - intros (Hu & Hs & Ha & Hk & Hr).
    unfold constructor. simpl. by rewrite Hu, Hs, Ha, Hk, Hr.
Qed.

Lemma app_depends_on_witness :
  reads_same sample_props sample_props_anon_elsewhere ∧
  ssm.env (anonKey sample_props) ≠ ssm.env (anonKey sample_props_anon_elsewhere) ∧
  app sample = app (constructor sample_scope "App" sample_props_anon_elsewhere
                      sample_deployment).
Proof.
  assert (H : reads_same sample_props sample_props_anon_elsewhere) by (repeat split).
  split; [exact H |]. split; [discriminate |].
  exact (proj2 (app_depends_on sample_scope "App" sample_props
                  sample_props_anon_elsewhere sample_deployment) H).
Defined.

(** X5: both parameter fetches of the pre-build phase run in the region
    [$SUPABASE_REGION], which the app sets to the region of the service role
    key, also for the anonymous key. *)
Theorem parameters_fetched_in_service_key_region scope id props d :
  let out := constructor scope id props d in
  amplify.environmentVariables (app out) !! "SUPABASE_REGION"
    = Some (cdk.region (ssm.env (serviceRoleKey props))) ∧
  preBuild_mentions out 1 "--region $SUPABASE_REGION --name $ANON_KEY_NAME " ∧
  preBuild_mentions out 2 "--region $SUPABASE_REGION --name $SERVICE_KEY_NAME " ∧
  ∀ c, c ∈ preBuild_commands out → embeds "--region " c → embeds "--region $SUPABASE_REGION " c.
Proof.
  intros out. split; [by vm_compute |].
  do 2 (split; [eexists; split; [reflexivity | by apply occurs_spec] |]).
  intros c Hc Hr. apply occurs_spec. apply occurs_spec in Hr.
  vm_compute in Hc.
  repeat (apply elem_of_cons in Hc as [-> | Hc]; [by vm_compute in Hr |- * |]).
  by apply elem_of_nil in Hc.
Qed.

(** ** The role and the policy *)

(** X6: one role serves throughout: the role left under the construct is
    the one the app runs as, the grantee of the three read grants and the
    only role the logging policy is attached to; it carries two inline
    policies, its default policy from the grants and then the logging
    policy, and only the Amplify service may assume it. *)
Theorem one_role_throughout scope id props d :
  let out := constructor scope id props d in
  let r := child_Role out in
  amplify.role (app out) = iam.role_id r ∧
  iam.grantee <$> grants out = replicate 3 (iam.role_id r) ∧
  iam.roles (child_AmplifySSRLoggingPolicy out) = [iam.role_id r] ∧
  iam.inlinePolicies r
    = ["DefaultPolicy"; iam.policy_id (child_AmplifySSRLoggingPolicy out)] ∧
  iam.assumedBy r = iam.ServicePrincipal "amplify.amazonaws.com" ∧
  iam.path r = "/service-role/".
Proof. intros out r. repeat split. Qed.

(** X7: the logging policy is named after the app id, and two deployments
    give it the same name only if the app id is the same. *)
Theorem policyName_per_app scope id props d :
  let out := constructor scope id props d in
  iam.policyName (child_AmplifySSRLoggingPolicy out)
    = "AmplifySSRLoggingPolicy-" +:+ amplify.appId (app out) ∧
  ∀ scope' id' props' d',
    iam.policyName (child_AmplifySSRLoggingPolicy (constructor scope' id' props' d'))
      = iam.policyName (child_AmplifySSRLoggingPolicy out) →
    attrAppId d' = attrAppId d.
Proof.
  intros out. split; [reflexivity |].
  intros scope' id' props' d' H. by apply (inj (String.append _)) in H.
Qed.

(** ** The environment of the branch *)

Lemma foldl_insert_dom (l : list (string * string)) (m : gmap string string) :
  dom (foldl (λ m kv, <[kv.1 := kv.2]> m) m l) = (list_to_set l.*1 ∪ dom m : gset string).
Proof.
  revert m. induction l as [|[k v] l IH]; intros m; simpl.
  - by rewrite (left_id_L ∅ (∪)).
  - rewrite IH, dom_insert_L.
    rewrite (assoc_L (∪)). f_equal. apply (comm_L (∪)).
Qed.

Lemma object_dom (l : list (string * string)) :
  dom (object l) = (list_to_set l.*1 : gset string).
Proof. unfold object. by rewrite foldl_insert_dom, dom_empty_L, (right_id_L ∅ (∪)). Qed.

(** X8: the branch ends with the two variables it was created with, the
    site URL and the app root: the [addEnvironment] call after [addBranch]
    writes the app root a second time and changes nothing. *)
Theorem branch_environment_two_variables scope id props d :
  let out := constructor scope id props d in
  let created :=
    object [ ("NEXT_PUBLIC_SITE_URL",
              "https://main." +:+ amplify.appId (app out) +:+ ".amplifyapp.com");
             ("AMPLIFY_MONOREPO_APP_ROOT", "apps/studio") ] in
  amplify.branch_environmentVariables (prodBranch out) = created ∧
  dom (amplify.branch_environmentVariables (prodBranch out))
    = ({[ "NEXT_PUBLIC_SITE_URL"; "AMPLIFY_MONOREPO_APP_ROOT" ]} : gset string).
Proof.
  intros out created.
  assert (E : amplify.branch_environmentVariables (prodBranch out) = created).
  { change (amplify.branch_environmentVariables (prodBranch out))
      with (<["AMPLIFY_MONOREPO_APP_ROOT" := "apps/studio"]> created).
    apply insert_id. by vm_compute. }
  split; [exact E |].
  rewrite E. unfold created. rewrite object_dom. simpl.
  by rewrite (right_id_L ∅ (∪)).
Qed.

(** ** The environment of the app *)

(** X9: the app has the eleven variables of [app_variable_names] and no
    other; in particular none of the three variables the pre-build phase
    writes the fetched values to is a variable of the app. *)
Theorem app_environment_names scope id props d :
  let env := amplify.environmentVariables (app (constructor scope id props d)) in
  dom env = (list_to_set app_variable_names : gset string) ∧
  env !! "POSTGRES_PASSWORD" = None ∧
  env !! "SUPABASE_ANON_KEY" = None ∧
  env !! "SUPABASE_SERVICE_KEY" = None.
Proof.
  intros env. split; [apply object_dom |]. repeat split; by vm_compute.
Qed.

(** X10: the URL is copied as it is given: [SUPABASE_URL] and
    [SUPABASE_PUBLIC_URL] are the URL itself and [STUDIO_PG_META_URL] is
    the URL followed by [/pg], so a URL that ends in a slash gives a
    double slash before [pg]. *)
Theorem supabaseUrl_trailing_slash scope id props d base :
  supabaseUrl props = base +:+ "/" →
  let env := amplify.environmentVariables (app (constructor scope id props d)) in
  env !! "SUPABASE_URL" = Some (supabaseUrl props) ∧
  env !! "SUPABASE_PUBLIC_URL" = Some (supabaseUrl props) ∧
  env !! "STUDIO_PG_META_URL" = Some (supabaseUrl props +:+ "/pg") ∧
  env !! "STUDIO_PG_META_URL" = Some (base +:+ "//pg").
Proof.
  intros Hb env.
  assert (E : env !! "STUDIO_PG_META_URL" = Some (supabaseUrl props +:+ "/pg"))
    by (by vm_compute).
  do 2 (split; [by vm_compute |]). split; [exact E |].
  rewrite E, Hb, append_assoc. reflexivity.
Qed.

Lemma supabaseUrl_trailing_slash_witness :
  supabaseUrl sample_props_trailing_slash = "https://api.example.com" +:+ "/" ∧
  amplify.environmentVariables
    (app (constructor sample_scope "App" sample_props_trailing_slash sample_deployment))
    !! "STUDIO_PG_META_URL" = Some "https://api.example.com//pg".
Proof.
  split; [reflexivity |].
  exact (proj2 (proj2 (proj2
    (supabaseUrl_trailing_slash sample_scope "App" sample_props_trailing_slash
       sample_deployment "https://api.example.com" eq_refl)))).
Defined.
